(** * Tonuino/soundfiles.hpp: sound-file numbers and the symbolic sound tables

    The header declares two conversion functions from a one-byte
    announcement number to a 16-bit file number, and two unscoped
    enumerations that name fixed sound files of the "advert" and the "mp3"
    folder.  Integers are modelled as [Z] with the conversions of the
    fixed-width types written out; an enumeration is modelled by its
    enumerator list as it is declared (name and optional initializer)
    together with the rule that gives every enumerator its value. *)

From Stdlib Require Import ZArith List String Bool Lia.
Import ListNotations.

Local Open Scope string_scope.
Local Open Scope Z_scope.

(** ** Fixed-width unsigned integers *)

Module Fixed.

(** Conversion of an integer to an unsigned type of [w] bits. *)
Definition wrap (w : Z) (z : Z) : Z := z mod 2 ^ w.

Definition to_uint8_t (z : Z) : Z := wrap 8 z.
Definition to_uint16_t (z : Z) : Z := wrap 16 z.

Definition in_uint8_t (z : Z) : Prop := 0 <= z <= 255.
Definition in_uint16_t (z : Z) : Prop := 0 <= z <= 65535.

Definition is_uint8_t (z : Z) : bool := (0 <=? z) && (z <=? 255).

End Fixed.

(** ** The conversion functions *)

(** [uint16_t getAdvertNumber(uint8_t numberToSay) { return numberToSay; }]
    The parameter holds a [uint8_t]; the return statement converts it to the
    return type [uint16_t]. *)
Definition getAdvertNumber (numberToSay : Z) : Z :=
  Fixed.to_uint16_t numberToSay.

(** [uint16_t getMp3Number(uint8_t numberToSay) { return numberToSay; }] *)
Definition getMp3Number (numberToSay : Z) : Z :=
  Fixed.to_uint16_t numberToSay.

(** A call with an arbitrary integer argument: the argument initialises the
    [uint8_t] parameter, which converts it first. *)
Definition call_getAdvertNumber (arg : Z) : Z :=
  getAdvertNumber (Fixed.to_uint8_t arg).

Definition call_getMp3Number (arg : Z) : Z :=
  getMp3Number (Fixed.to_uint8_t arg).

(** ** Enumerations *)

Module Enum.

(** One enumerator of an [enum] declaration: its name, and its
    initializer when the declaration gives one. *)
Record enumerator : Type := mk_enumerator {
  e_name : string;
  e_init : option Z
}.

Definition decl : Type := list enumerator.

(** Values of the enumerators: the initializer when there is one,
    otherwise the value of the previous enumerator plus one
    ([next] is the value an enumerator without initializer receives). *)
Fixpoint values_from (next : Z) (d : decl) : list (string * Z) :=
  match d with
  | [] => []
  | e :: d' =>
      let v := match e_init e with
               | Some i => i
               | None => next
               end in
      (e_name e, v) :: values_from (v + 1) d'
  end.

(** The first enumerator has value zero when it has no initializer. *)
Definition values (d : decl) : list (string * Z) := values_from 0 d.

Definition names (d : decl) : list string := map fst (values d).
Definition numbers (d : decl) : list Z := map snd (values d).

(** The value bound to a name, if the enumeration declares it. *)
Fixpoint lookup (name : string) (tbl : list (string * Z)) : option Z :=
  match tbl with
  | [] => None
  | (k, v) :: tbl' =>
      if String.eqb name k then Some v else lookup name tbl'
  end.

Definition value_of (d : decl) (name : string) : option Z :=
  lookup name (values d).

(** Decidable check that a list of integers has no repetition. *)
Fixpoint distinct (l : list Z) : bool :=
  match l with
  | [] => true
  | x :: l' => negb (existsb (Z.eqb x) l') && distinct l'
  end.

End Enum.

(** [NAME = v] and plain [NAME] in an enumerator list. *)
Definition init (name : string) (v : Z) : Enum.enumerator :=
  Enum.mk_enumerator name (Some v).

Definition plain (name : string) : Enum.enumerator :=
  Enum.mk_enumerator name None.

(** [enum Advertisements]: all sound files in the "advert" folder.
    The enumerator names are the ones the header spells. *)
Definition Advertisements : Enum.decl :=
  [ init "NOTIFIER_DING" 260;
    init "NOTIFIER_DONG" 261;
    init "FREEZE_INTRO" 300;
    plain "FREEZE_STOPP";
    plain "FREEZE_DONT_MOVE";
    plain "FREEZE_CONITNUE" ].

(** [enum Mp3s]: all sound files in the "mp3" folder. *)
Definition Mp3s : Enum.decl :=
  [ init "OH_A_NEW_CARD" 300;
    init "OK" 400;
    init "THAT_DIDNT_WORK" 401 ].

(** The two enumeration types of the header.  A constant is an enumerator
    value together with the enumeration it belongs to. *)
Inductive enum_type : Type :=
  | Advertisements_t
  | Mp3s_t.

Definition decl_of (t : enum_type) : Enum.decl :=
  match t with
  | Advertisements_t => Advertisements
  | Mp3s_t => Mp3s
  end.

Definition constant : Type := (enum_type * Z)%type.

Definition constant_of (t : enum_type) (name : string) : option constant :=
  match Enum.value_of (decl_of t) name with
  | Some v => Some (t, v)
  | None => None
  end.

(** Every name the header brings into the enclosing scope: unscoped
    enumerations export their enumerators there. *)
Definition scope_names : list string :=
  (Enum.names Advertisements ++ Enum.names Mp3s)%list.

(** * Facts *)

(** ** Conversions between the fixed-width types *)

Lemma is_uint8_t_spec (z : Z) :
  Fixed.is_uint8_t z = true <-> Fixed.in_uint8_t z.
Proof.
  unfold Fixed.is_uint8_t, Fixed.in_uint8_t.
  rewrite andb_true_iff, !Z.leb_le. tauto.
Qed.

Lemma to_uint8_t_range (z : Z) : Fixed.in_uint8_t (Fixed.to_uint8_t z).
Proof.
  unfold Fixed.in_uint8_t, Fixed.to_uint8_t, Fixed.wrap.
  assert (0 <= z mod 2 ^ 8 < 2 ^ 8) by (apply Z.mod_pos_bound; lia).
  change (2 ^ 8) with 256 in *. lia.
Qed.

Lemma to_uint16_t_range (z : Z) : Fixed.in_uint16_t (Fixed.to_uint16_t z).
Proof.
  unfold Fixed.in_uint16_t, Fixed.to_uint16_t, Fixed.wrap.
  assert (0 <= z mod 2 ^ 16 < 2 ^ 16) by (apply Z.mod_pos_bound; lia).
  change (2 ^ 16) with 65536 in *. lia.
Qed.

(** Widening a one-byte value to 16 bits keeps the value. *)
Lemma to_uint16_t_of_uint8_t (z : Z) :
  Fixed.in_uint8_t z -> Fixed.to_uint16_t z = z.
Proof.
  unfold Fixed.in_uint8_t, Fixed.to_uint16_t, Fixed.wrap. intros Hz.
  apply Z.mod_small. change (2 ^ 16) with 65536. lia.
Qed.

(** An argument outside one byte is reduced before the body runs. *)
Example call_getAdvertNumber_256 : call_getAdvertNumber 256 = 0.
Proof. reflexivity. Qed.

Example call_getMp3Number_261 : call_getMp3Number 261 = 5.
Proof. reflexivity. Qed.

Example getAdvertNumber_5 : getAdvertNumber 5 = 5.
Proof. reflexivity. Qed.

Example getMp3Number_255 : getMp3Number 255 = 255.
Proof. reflexivity. Qed.

(** ** The enumerator-value rule *)

Lemma values_from_names (d : Enum.decl) (next : Z) :
  map fst (Enum.values_from next d) = map Enum.e_name d.
Proof.
  revert next. induction d as [|e d IH]; intros next; simpl.
  - reflexivity.
  - f_equal. apply IH.
Qed.

Lemma values_from_length (d : Enum.decl) (next : Z) :
  List.length (Enum.values_from next d) = List.length d.
Proof.
  rewrite <- (List.length_map fst), values_from_names. apply List.length_map.
Qed.

(** An enumerator with an initializer has the initializer as value. *)
Lemma values_from_initialized (d : Enum.decl) (next : Z) (i : nat)
      (name : string) (v : Z) :
  nth_error d i = Some (Enum.mk_enumerator name (Some v)) ->
  nth_error (Enum.values_from next d) i = Some (name, v).
Proof.
  revert next i. induction d as [|e d IH]; intros next [|i] H; simpl in *;
    try discriminate.
  - injection H as ->. reflexivity.
  - apply IH, H.
Qed.

(** An enumerator without initializer that follows another one has the
    value of its predecessor plus one. *)
Lemma values_from_auto_increment (d : Enum.decl) (next : Z) (i : nat)
      (prev name : string) (v : Z) :
  nth_error (Enum.values_from next d) i = Some (prev, v) ->
  nth_error d (S i) = Some (Enum.mk_enumerator name None) ->
  nth_error (Enum.values_from next d) (S i) = Some (name, v + 1).
Proof.
  revert next i. induction d as [|e d IH]; intros next i Hp Hn.
  - destruct i; discriminate.
  - destruct i as [|i].
    + simpl in Hp. injection Hp as _ Hv.
      destruct d as [|e' d]; simpl in Hn; [discriminate|].
      injection Hn as ->. simpl. rewrite Hv. reflexivity.
    + simpl in Hp. change (nth_error (e :: d) (S (S i)))
        with (nth_error d (S i)) in Hn.
      change (nth_error (Enum.values_from next (e :: d)) (S (S i)))
        with (nth_error
                (Enum.values_from
                   (match Enum.e_init e with Some k => k | None => next end + 1)
                   d) (S i)).
      apply IH; assumption.
Qed.

Lemma lookup_In (name : string) (tbl : list (string * Z)) (v : Z) :
  Enum.lookup name tbl = Some v -> In (name, v) tbl.
Proof.
  induction tbl as [|[k w] tbl IH]; simpl; [discriminate|].
  destruct (String.eqb name k) eqn:E.
  - apply String.eqb_eq in E. intros [= ->]. left. now subst.
  - intros H. right. apply IH, H.
Qed.

Lemma lookup_None (name : string) (tbl : list (string * Z)) :
  Enum.lookup name tbl = None <-> ~ In name (map fst tbl).
Proof.
  induction tbl as [|[k w] tbl IH]; simpl.
  - tauto.
  - destruct (String.eqb name k) eqn:E.
    + apply String.eqb_eq in E. subst. split; [discriminate|]. tauto.
    + apply String.eqb_neq in E. rewrite IH. split.
      * intros H [H1|H1]; [congruence|tauto].
      * tauto.
Qed.

Lemma distinct_NoDup (l : list Z) : Enum.distinct l = true <-> NoDup l.
Proof.
  induction l as [|x l IH]; simpl.
  - split; [constructor|reflexivity].
  - rewrite andb_true_iff, negb_true_iff, IH. split.
    + intros [Hx Hl]. constructor; [|assumption].
      intros Hin. assert (existsb (Z.eqb x) l = true) as E.
      { apply existsb_exists. exists x. split; [assumption|apply Z.eqb_refl]. }
      congruence.
    + intros H. inversion H as [|? ? Hx Hl]; subst. split; [|assumption].
      destruct (existsb (Z.eqb x) l) eqn:E; [|reflexivity].
      apply existsb_exists in E. destruct E as [y [Hy Exy]].
      apply Z.eqb_eq in Exy. subst y. contradiction.
Qed.

Example values_Advertisements :
  Enum.values Advertisements =
  [ ("NOTIFIER_DING"%string, 260); ("NOTIFIER_DONG"%string, 261);
    ("FREEZE_INTRO"%string, 300); ("FREEZE_STOPP"%string, 301);
    ("FREEZE_DONT_MOVE"%string, 302); ("FREEZE_CONITNUE"%string, 303) ].
Proof. reflexivity. Qed.

Example values_Mp3s :
  Enum.values Mp3s =
  [ ("OH_A_NEW_CARD"%string, 300); ("OK"%string, 400);
    ("THAT_DIDNT_WORK"%string, 401) ].
Proof. reflexivity. Qed.

(** Without any initializer the numbering starts at zero. *)
Example values_plain :
  Enum.values [ plain "A"; plain "B"; init "C" 7; plain "D" ] =
  [ ("A"%string, 0); ("B"%string, 1); ("C"%string, 7); ("D"%string, 8) ].
Proof. reflexivity. Qed.

(** A table whose values are pairwise distinct binds every value to one
    name only. *)
Lemma lookup_injective (tbl : list (string * Z)) (n1 n2 : string) (v : Z) :
  NoDup (map snd tbl) ->
  Enum.lookup n1 tbl = Some v ->
  Enum.lookup n2 tbl = Some v ->
  n1 = n2.
Proof.
  induction tbl as [|[k w] tbl IH]; simpl; intros Hnd H1 H2; [discriminate|].
  inversion Hnd as [|? ? Hw Hnd']; subst.
  assert (forall n, Enum.lookup n tbl = Some w -> False) as Hfresh.
  { intros n Hn. apply Hw. apply lookup_In in Hn.
    change w with (snd (n, w)). now apply in_map. }
  destruct (String.eqb n1 k) eqn:E1, (String.eqb n2 k) eqn:E2.
  - apply String.eqb_eq in E1, E2. congruence.
  - injection H1 as <-. destruct (Hfresh _ H2).
  - injection H2 as <-. destruct (Hfresh _ H1).
  - now apply IH.
Qed.

(** ** The conversion functions *)

(** C1: for every announcement number [n] in [1,255] both conversions
    return [n] unchanged: [getAdvertNumber n = n] and [getMp3Number n = n]. *)
Theorem conversion_identity (n : Z) :
  1 <= n <= 255 ->
  getAdvertNumber n = n /\ getMp3Number n = n.
Proof.
  intros Hn. unfold getAdvertNumber, getMp3Number.
  rewrite to_uint16_t_of_uint8_t by (unfold Fixed.in_uint8_t; lia).
  split; reflexivity.
Qed.

Lemma conversion_identity_witness :
  1 <= 42 <= 255 /\ getAdvertNumber 42 = 42 /\ getMp3Number 42 = 42.
Proof.
  split; [lia | apply (conversion_identity 42); lia].
Defined.

(** C8: at zero, which the description leaves open, both conversions are
    defined and return zero, and on the whole one-byte domain [0,255] each
    of them yields a 16-bit result, namely its argument. *)
Theorem conversion_total_on_byte :
  (getAdvertNumber 0 = 0 /\ getMp3Number 0 = 0) /\
  forall n : Z, Fixed.in_uint8_t n ->
    (exists r, getAdvertNumber n = r /\ Fixed.in_uint16_t r /\ r = n) /\
    (exists r, getMp3Number n = r /\ Fixed.in_uint16_t r /\ r = n).
Proof.
  split; [split; reflexivity|].
  intros n Hn.
  assert (Fixed.to_uint16_t n = n) as E by now apply to_uint16_t_of_uint8_t.
  assert (Fixed.in_uint16_t n) as Hr
    by (unfold Fixed.in_uint8_t, Fixed.in_uint16_t in *; lia).
  unfold getAdvertNumber, getMp3Number. rewrite E.
  split; exists n; auto.
Qed.

Lemma conversion_total_on_byte_witness :
  Fixed.in_uint8_t 0 /\
  (exists r, getAdvertNumber 0 = r /\ Fixed.in_uint16_t r /\ r = 0) /\
  (exists r, getMp3Number 0 = r /\ Fixed.in_uint16_t r /\ r = 0).
Proof.
  split.
  - unfold Fixed.in_uint8_t. lia.
  - apply (proj2 conversion_total_on_byte 0). unfold Fixed.in_uint8_t. lia.
Defined.

(** C10: the two conversions are extensionally equal, on every input and so
    on every one-byte input: [getAdvertNumber n = getMp3Number n]. *)
Theorem conversions_agree (n : Z) : getAdvertNumber n = getMp3Number n.
Proof.
  unfold getAdvertNumber, getMp3Number. reflexivity.
Qed.

(** ** The symbolic sound tables *)

(** C3: [Mp3s] declares exactly [OH_A_NEW_CARD] with value 300, [OK] with
    value 400 and [THAT_DIDNT_WORK] with value 401. *)
Theorem Mp3s_enumerators :
  Enum.values Mp3s =
    [ ("OH_A_NEW_CARD", 300); ("OK", 400); ("THAT_DIDNT_WORK", 401) ] /\
  Enum.value_of Mp3s "OH_A_NEW_CARD" = Some 300 /\
  Enum.value_of Mp3s "OK" = Some 400 /\
  Enum.value_of Mp3s "THAT_DIDNT_WORK" = Some 401.
Proof.
  repeat split.
Qed.

(** C2: [Advertisements] declares six enumerators with the values 260, 261,
    300, 301, 302 and 303.  The first five carry the names [NOTIFIER_DING],
    [NOTIFIER_DONG], [FREEZE_INTRO], [FREEZE_STOPP] and [FREEZE_DONT_MOVE];
    the sixth, with value 303, is spelled [FREEZE_CONITNUE] in the header,
    and the name [FREEZE_CONTINUE] is not declared. *)
Theorem Advertisements_enumerators :
  Enum.values Advertisements =
    [ ("NOTIFIER_DING", 260); ("NOTIFIER_DONG", 261);
      ("FREEZE_INTRO", 300); ("FREEZE_STOPP", 301);
      ("FREEZE_DONT_MOVE", 302); ("FREEZE_CONITNUE", 303) ] /\
  Enum.value_of Advertisements "FREEZE_CONITNUE" = Some 303 /\
  Enum.value_of Advertisements "FREEZE_CONTINUE" = None /\
  ~ In "FREEZE_CONTINUE" scope_names.
Proof.
  split; [reflexivity|]. split; [reflexivity|]. split; [reflexivity|].
  unfold scope_names, Enum.names. rewrite <- map_app.
  apply lookup_None. reflexivity.
Qed.

(** C5: the three enumerators declared after [FREEZE_INTRO] have no
    initializer and take the values [FREEZE_INTRO + 1], [FREEZE_INTRO + 2]
    and [FREEZE_INTRO + 3] in this order.  They are [FREEZE_STOPP],
    [FREEZE_DONT_MOVE] and the enumerator the header spells
    [FREEZE_CONITNUE]; [FREEZE_CONTINUE] has no value. *)
Theorem freeze_auto_increment :
  exists intro : Z,
    Enum.value_of Advertisements "FREEZE_INTRO" = Some intro /\
    nth_error Advertisements 3 = Some (plain "FREEZE_STOPP") /\
    nth_error Advertisements 4 = Some (plain "FREEZE_DONT_MOVE") /\
    nth_error Advertisements 5 = Some (plain "FREEZE_CONITNUE") /\
    Enum.value_of Advertisements "FREEZE_STOPP" = Some (intro + 1) /\
    Enum.value_of Advertisements "FREEZE_DONT_MOVE" = Some (intro + 2) /\
    Enum.value_of Advertisements "FREEZE_CONITNUE" = Some (intro + 3) /\
    Enum.value_of Advertisements "FREEZE_CONTINUE" = None.
Proof.
  exists 300. repeat split.
Qed.

(** C4: within [Advertisements] the enumerator values are pairwise
    distinct, and so are they within [Mp3s]; in each enumeration a value
    therefore belongs to one name only. *)
Theorem enumerators_pairwise_distinct :
  (NoDup (Enum.numbers Advertisements) /\
   NoDup (Enum.numbers Mp3s)) /\
  (forall (t : enum_type) (n1 n2 : string) (v : Z),
      Enum.value_of (decl_of t) n1 = Some v ->
      Enum.value_of (decl_of t) n2 = Some v ->
      n1 = n2).
Proof.
  assert (NoDup (Enum.numbers Advertisements)) as Ha
    by (apply distinct_NoDup; reflexivity).
  assert (NoDup (Enum.numbers Mp3s)) as Hm
    by (apply distinct_NoDup; reflexivity).
  split; [split; assumption|].
  intros t n1 n2 v. unfold Enum.value_of.
  apply lookup_injective. destruct t; assumption.
Qed.

Lemma enumerators_pairwise_distinct_witness :
  Enum.value_of (decl_of Mp3s_t) "OK" = Some 400 /\ "OK" = "OK".
Proof.
  split; [reflexivity|].
  apply (proj2 enumerators_pairwise_distinct Mp3s_t "OK" "OK" 400);
    reflexivity.
Defined.

(** C6: [FREEZE_INTRO] of [Advertisements] and [OH_A_NEW_CARD] of [Mp3s]
    have the same value, 300.  The collision is harmless: the two constants
    belong to different enumerations, every name of the header is declared
    once, and inside each enumeration the values stay pairwise distinct. *)
Theorem cross_namespace_collision :
  Enum.value_of Advertisements "FREEZE_INTRO" = Some 300 /\
  Enum.value_of Mp3s "OH_A_NEW_CARD" = Some 300 /\
  Enum.value_of Advertisements "FREEZE_INTRO"
    = Enum.value_of Mp3s "OH_A_NEW_CARD" /\
  constant_of Advertisements_t "FREEZE_INTRO"
    <> constant_of Mp3s_t "OH_A_NEW_CARD" /\
  NoDup scope_names /\
  NoDup (Enum.numbers Advertisements) /\
  NoDup (Enum.numbers Mp3s).
Proof.
  split; [reflexivity|]. split; [reflexivity|]. split; [reflexivity|].
  split; [discriminate|].
  split.
  - unfold scope_names. simpl.
    repeat (constructor; [simpl; intuition discriminate|]). constructor.
  - split; apply distinct_NoDup; reflexivity.
Qed.

(** Every enumerator value of the two tables is at least 260. *)
Lemma constants_at_least_260 :
  Forall (fun v => 260 <= v)
         (Enum.numbers Advertisements ++ Enum.numbers Mp3s).
Proof.
  unfold Enum.numbers, Enum.values, Advertisements, Mp3s, init, plain.
  simpl. repeat (constructor; [lia|]). constructor.
Qed.

(** C9: for every one-byte input the 16-bit results are at most 255 (the
    widening keeps the value), so a converted announcement number differs
    from every enumerator value of [Advertisements] and [Mp3s], all of
    which are at least 260. *)
Theorem converted_number_below_constants (n : Z) :
  0 <= n <= 255 ->
  (getAdvertNumber n = n /\ getMp3Number n = n) /\
  (getAdvertNumber n <= 255 /\ getMp3Number n <= 255) /\
  Forall (fun v => 260 <= v /\ getAdvertNumber n <> v /\ getMp3Number n <> v)
         (Enum.numbers Advertisements ++ Enum.numbers Mp3s).
Proof.
  intros Hn.
  assert (getAdvertNumber n = n /\ getMp3Number n = n) as [Ea Em].
  { unfold getAdvertNumber, getMp3Number.
    rewrite to_uint16_t_of_uint8_t by exact Hn. split; reflexivity. }
  rewrite Ea, Em. split; [split; reflexivity|]. split; [lia|].
  eapply Forall_impl; [|apply constants_at_least_260].
  intros v Hv. simpl in Hv. lia.
Qed.

Lemma converted_number_below_constants_witness :
  0 <= 255 <= 255 /\
  (getAdvertNumber 255 <= 255 /\ getMp3Number 255 <= 255) /\
  Forall (fun v => 260 <= v /\ getAdvertNumber 255 <> v /\
                   getMp3Number 255 <> v)
         (Enum.numbers Advertisements ++ Enum.numbers Mp3s).
Proof.
  split; [lia|].
  apply (converted_number_below_constants 255). lia.
Defined.


(** ** Calls with arguments outside one byte *)

Lemma call_getAdvertNumber_mod (arg : Z) :
  call_getAdvertNumber arg = arg mod 256.
Proof.
  unfold call_getAdvertNumber, getAdvertNumber.
  rewrite to_uint16_t_of_uint8_t by apply to_uint8_t_range.
  reflexivity.
Qed.

Lemma call_getMp3Number_mod (arg : Z) :
  call_getMp3Number arg = arg mod 256.
Proof.
  unfold call_getMp3Number, getMp3Number.
  rewrite to_uint16_t_of_uint8_t by apply to_uint8_t_range.
  reflexivity.
Qed.

(** X1: whatever integer a caller passes, the [uint8_t] parameter keeps its
    low eight bits only: both conversions return the argument modulo 256,
    a number between 0 and 255. *)
Theorem call_conversion_mod_256 (arg : Z) :
  call_getAdvertNumber arg = arg mod 256 /\
  call_getMp3Number arg = arg mod 256 /\
  0 <= call_getAdvertNumber arg <= 255 /\
  0 <= call_getMp3Number arg <= 255.
Proof.
  rewrite ?call_getAdvertNumber_mod, ?call_getMp3Number_mod.
  assert (0 <= arg mod 256 < 256) by (apply Z.mod_pos_bound; lia).
  repeat split; lia.
Qed.

(** X2: a call returns its argument unchanged exactly when the argument
    lies in [0,255]; outside that range the result differs from it. *)
Theorem call_conversion_fixed_iff (arg : Z) :
  (call_getAdvertNumber arg = arg <-> 0 <= arg <= 255) /\
  (call_getMp3Number arg = arg <-> 0 <= arg <= 255).
Proof.
  rewrite ?call_getAdvertNumber_mod, ?call_getMp3Number_mod.
  assert (arg mod 256 = arg <-> 0 <= arg <= 255) as E.
  { split.
    - intros H. assert (0 <= arg mod 256 < 256)
        by (apply Z.mod_pos_bound; lia). lia.
    - intros H. apply Z.mod_small. lia. }
  split; exact E.
Qed.

(** X3: two arguments select the same file number exactly when they are
    congruent modulo 256, for either conversion and across the two. *)
Theorem call_conversion_same_file_iff (a b : Z) :
  (call_getAdvertNumber a = call_getAdvertNumber b <->
     a mod 256 = b mod 256) /\
  (call_getMp3Number a = call_getMp3Number b <-> a mod 256 = b mod 256) /\
  (call_getAdvertNumber a = call_getMp3Number b <-> a mod 256 = b mod 256) /\
  call_getAdvertNumber (a + 256) = call_getAdvertNumber a /\
  call_getMp3Number (a + 256) = call_getMp3Number a.
Proof.
  rewrite ?call_getAdvertNumber_mod, ?call_getMp3Number_mod.
  assert ((a + 256) mod 256 = a mod 256) as E.
  { replace (a + 256) with (a + 1 * 256) by lia. apply Z.mod_add. lia. }
  repeat split; auto.
Qed.

(** X4: on one-byte inputs the conversions are injective, each one and
    across the two folders: different announcement numbers never share a
    file number. *)
Theorem conversion_injective_on_bytes (n m : Z) :
  Fixed.in_uint8_t n -> Fixed.in_uint8_t m ->
  (getAdvertNumber n = getAdvertNumber m \/
   getMp3Number n = getMp3Number m \/
   getAdvertNumber n = getMp3Number m) ->
  n = m.
Proof.
  intros Hn Hm. unfold getAdvertNumber, getMp3Number.
  rewrite !to_uint16_t_of_uint8_t by assumption.
  intros [H | [H | H]]; exact H.
Qed.

Lemma conversion_injective_on_bytes_witness :
  Fixed.in_uint8_t 7 /\ Fixed.in_uint8_t 7 /\
  getAdvertNumber 7 = getMp3Number 7 /\ 7 = 7.
Proof.
  assert (Fixed.in_uint8_t 7) as H7 by (unfold Fixed.in_uint8_t; lia).
  split; [exact H7|]. split; [exact H7|]. split; [reflexivity|].
  apply (conversion_injective_on_bytes 7 7 H7 H7).
  right. right. reflexivity.
Defined.

(** X5: a result fed back into either conversion is returned as it is:
    converting twice is converting once. *)
Theorem call_conversion_idempotent (arg : Z) :
  call_getAdvertNumber (call_getAdvertNumber arg) = call_getAdvertNumber arg /\
  call_getMp3Number (call_getMp3Number arg) = call_getMp3Number arg /\
  call_getMp3Number (call_getAdvertNumber arg) = call_getAdvertNumber arg /\
  call_getAdvertNumber (call_getMp3Number arg) = call_getMp3Number arg.
Proof.
  rewrite ?call_getAdvertNumber_mod, ?call_getMp3Number_mod.
  rewrite Z.mod_mod by lia. repeat split.
Qed.

(** ** The symbolic constants and the conversions *)

Lemma constants_in_second_page :
  Forall (fun v => 256 <= v <= 511)
         (Enum.numbers Advertisements ++ Enum.numbers Mp3s).
Proof.
  unfold Enum.numbers, Enum.values, Advertisements, Mp3s, init, plain.
  simpl. repeat (constructor; [lia|]). constructor.
Qed.

(** X6: every enumerator value of [Advertisements] and [Mp3s] fits the
    16-bit result type unchanged, but does not fit the one-byte parameter:
    passed to a conversion it comes back reduced by 256, never as itself. *)
Theorem constants_through_conversion :
  Forall (fun v => Fixed.to_uint16_t v = v /\
                   call_getAdvertNumber v = v - 256 /\
                   call_getMp3Number v = v - 256 /\
                   call_getAdvertNumber v <> v /\
                   call_getMp3Number v <> v)
         (Enum.numbers Advertisements ++ Enum.numbers Mp3s).
Proof.
  eapply Forall_impl; [|apply constants_in_second_page].
  intros v Hv. simpl in Hv.
  rewrite ?call_getAdvertNumber_mod, ?call_getMp3Number_mod.
  assert (v mod 256 = v - 256) as E.
  { replace v with ((v - 256) + 1 * 256) at 1 by lia.
    rewrite Z.mod_add by lia. apply Z.mod_small. lia. }
  rewrite E. split; [|repeat split; lia].
  unfold Fixed.to_uint16_t, Fixed.wrap. apply Z.mod_small.
  change (2 ^ 16) with 65536. lia.
Qed.

(** X7: a value occurs in both tables exactly when it is 300; the two
    enumerations share no other file number. *)
Theorem only_shared_value (v : Z) :
  (In v (Enum.numbers Advertisements) /\ In v (Enum.numbers Mp3s)) <->
  v = 300.
Proof.
  unfold Enum.numbers, Enum.values, Advertisements, Mp3s, init, plain.
  simpl. split.
  - intros [Ha Hm]. lia.
  - intros ->. split; auto 10.
Qed.

(** The names that carry the shared value: [FREEZE_INTRO] in the one
    table and [OH_A_NEW_CARD] in the other. *)
Theorem shared_value_names (n1 n2 : string) :
  Enum.value_of Advertisements n1 = Some 300 ->
  Enum.value_of Mp3s n2 = Some 300 ->
  n1 = "FREEZE_INTRO" /\ n2 = "OH_A_NEW_CARD".
Proof.
  intros H1 H2. split.
  - apply (lookup_injective (Enum.values Advertisements) _ _ 300);
      [apply distinct_NoDup; reflexivity | exact H1 | reflexivity].
  - apply (lookup_injective (Enum.values Mp3s) _ _ 300);
      [apply distinct_NoDup; reflexivity | exact H2 | reflexivity].
Qed.

Lemma shared_value_names_witness :
  Enum.value_of Advertisements "FREEZE_INTRO" = Some 300 /\
  Enum.value_of Mp3s "OH_A_NEW_CARD" = Some 300 /\
  "FREEZE_INTRO" = "FREEZE_INTRO" /\ "OH_A_NEW_CARD" = "OH_A_NEW_CARD".
Proof.
  split; [reflexivity|]. split; [reflexivity|].
  apply (shared_value_names "FREEZE_INTRO" "OH_A_NEW_CARD"); reflexivity.
Defined.
